(** * A shallow embedding of [refinery.py]: Predictor, FeedbackModule,
    Validation, RetryAdapter and Retrier.

    The Python code runs against the [dspy] framework.  The parts of it the
    module touches are modelled as an explicit state:
    - [dspy.settings.adapter], the ambient request-construction mechanism,
      read by [dspy.Predict] (as [settings.adapter or ChatAdapter()]) and by
      [Retrier.retry_context], and temporarily replaced by [dspy.context];
    - the LM history: one entry per prediction-engine invocation, holding the
      request the adapter built;
    - [dspy.settings.trace], appended to by [FeedbackModule.__call__];
    - the scope events of [dspy.context] (entry with the installed adapter,
      exit), which restores the previous settings in a [finally] block;
    - a spy counter, touched by nothing in the code, that a test wraps
      around a module to count its invocations.
    Python exceptions are the [Raise] outcome of a state-and-error monad in
    which the state reached at the raise point is kept, as in Python. *)

From Stdlib Require Import String Ascii List QArith Lia ZArith.
Import ListNotations.
Open Scope string_scope.
Open Scope list_scope.

(** ** Data *)

(** A signature field: its name and its description. *)
Definition Field := (string * string)%type.

(** [dspy.Signature]: input fields and output fields, in order. *)
Record Signature := mkSignature {
  sig_inputs : list Field;
  sig_outputs : list Field
}.

(** [Signature.append(name, InputField(desc))]: [insert(-1, ...)], which
    places a new input field after the existing ones; a derived signature,
    the original is untouched. *)
Definition sig_append (s : Signature) (name desc : string) : Signature :=
  mkSignature (sig_inputs s ++ [(name, desc)]) (sig_outputs s).

(** A Python [dict] from field names to values, in insertion order. *)
Definition Dict := list (string * string).

Fixpoint dict_get (d : Dict) (k : string) : option string :=
  match d with
  | [] => None
  | (k', v) :: d' => if String.eqb k k' then Some v else dict_get d' k
  end.

(** [d | {k: v}]: an existing key keeps its place and takes the new value,
    a new key goes last. *)
Fixpoint dict_set (d : Dict) (k v : string) : Dict :=
  match d with
  | [] => [(k, v)]
  | (k', v') :: d' =>
      if String.eqb k k' then (k', v) :: d' else (k', v') :: dict_set d' k v
  end.

(** [Input[T]] (a [dspy.Example]) and [Output[T]] (a [dspy.Prediction]):
    field values by name. *)
Definition Input := Dict.
Definition Output := Dict.

(** [Feedback(evaluation, feedback=None)]; the float score is a rational. *)
Record Feedback := mkFeedback {
  evaluation : Q;
  feedback : option string
}.

(** Adapters.  A base adapter (such as [dspy.ChatAdapter]) is known by its
    name; [RetryAdapter(adapter, feedback)] wraps another adapter. *)
Inductive Adapter :=
| BaseAdapter (name : string)
| RetryAdapter (adapter : Adapter) (feedback : string).

(** What a base adapter receives: the request sent to the language model
    (the [lm] and [lm_kwargs] arguments pass through unchanged and are
    left out). *)
Record Request := mkRequest {
  req_adapter : string;
  req_signature : Signature;
  req_inputs : Dict
}.

Definition hint_name := "hint_".
Definition hint_desc := "A hint to the module from an earlier run".

(** [Adapter.__call__(lm, lm_kwargs, signature, demos, inputs)];
    [RetryAdapter.__call__] is lines 99-103. *)
Fixpoint adapter_call (a : Adapter) (signature : Signature) (inputs : Dict)
  : Request :=
  match a with
  | BaseAdapter b => mkRequest b signature inputs
  | RetryAdapter adapter fb =>
      let modified_signature := sig_append signature hint_name hint_desc in
      adapter_call adapter modified_signature (dict_set inputs hint_name fb)
  end.

(** [dspy.settings.adapter or dspy.ChatAdapter()]. *)
Definition default_adapter (a : option Adapter) : Adapter :=
  match a with
  | Some a' => a'
  | None => BaseAdapter "ChatAdapter"
  end.

(** ** Effects *)

Inductive Exn :=
| AssertionError (msg : string)
| RuntimeError (msg : string)
| EngineError (msg : string).

Inductive res (A : Type) :=
| Ok (a : A)
| Raise (e : Exn).
Arguments Ok {A} a.
Arguments Raise {A} e.

Inductive ScopeEvent :=
| Enter (a : Adapter)
| Exit.

Record St := mkSt {
  st_adapter : option Adapter;
  st_history : list Request;
  st_trace : list (Input * Output * Feedback);
  st_scopes : list ScopeEvent;
  st_calls : nat
}.

Definition set_adapter (a : option Adapter) (s : St) : St :=
  mkSt a (st_history s) (st_trace s) (st_scopes s) (st_calls s).
Definition log_request (r : Request) (s : St) : St :=
  mkSt (st_adapter s) (st_history s ++ [r]) (st_trace s) (st_scopes s)
    (st_calls s).
Definition log_trace (e : Input * Output * Feedback) (s : St) : St :=
  mkSt (st_adapter s) (st_history s) (st_trace s ++ [e]) (st_scopes s)
    (st_calls s).
Definition log_scope (e : ScopeEvent) (s : St) : St :=
  mkSt (st_adapter s) (st_history s) (st_trace s) (st_scopes s ++ [e])
    (st_calls s).
Definition bump_calls (s : St) : St :=
  mkSt (st_adapter s) (st_history s) (st_trace s) (st_scopes s)
    (S (st_calls s)).

Definition M (A : Type) := St -> res A * St.

Definition ret {A} (a : A) : M A := fun s => (Ok a, s).
Definition raise {A} (e : Exn) : M A := fun s => (Raise e, s).
Definition bind {A B} (m : M A) (k : A -> M B) : M B :=
  fun s => match m s with
           | (Ok a, s') => k a s'
           | (Raise e, s') => (Raise e, s')
           end.

Notation "x <- m ;; k" := (bind m (fun x => k))
  (at level 61, m at next level, right associativity).
Notation "m ;;; k" := (bind m (fun _ => k))
  (at level 61, right associativity).

(** ** The prediction engine, Predictor, FeedbackModule and Validation *)

(** The language model: its answer to the [n]-th invocation, given the
    request; it may raise. *)
Definition Engine := nat -> Request -> res Output.

(** [FeedbackModule.__call__] (lines 46-50): [forward] is the scoring
    strategy, a pure function; the result is appended to the trace. *)
Definition feedback_call (fm : Input -> Output -> Feedback) (input : Input)
  (output : Output) : M Feedback :=
  fun s => let fb := fm input output in (Ok fb, log_trace (input, output, fb) s).

(** [Validation(feedback_module, validation_threshold)]. *)
Record Validation := mkValidation {
  v_feedback_module : Input -> Output -> Feedback;
  validation_threshold : Q
}.

(** [Validation.__call__] / [Validation.forward] (lines 66-71):
    [feedback.evaluation >= self.validation_threshold]. *)
Definition validation_call (v : Validation) (input : Input) (output : Output)
  : M bool :=
  fb <- feedback_call (v_feedback_module v) input output ;;
  ret (Qle_bool (validation_threshold v) (evaluation fb)).

(** A Predictor: the signature it fulfils and its optional validation. *)
Record Predictor := mkPredictor {
  p_signature : Signature;
  validation : option Validation
}.

Definition assert_msg := "Output failed to pass validation".
Definition exhausted_msg := "Could not obtain proper result".

Section WithEngine.
Variable engine : Engine.

(** One prediction-engine invocation ([dspy.Predict] as in [QAModule]): the
    ambient adapter ([settings.adapter or ChatAdapter()]) builds the request,
    which is recorded in the LM history and answered by the engine. *)
Definition engine_call (signature : Signature) (inputs : Dict) : M Output :=
  fun s =>
    let r := adapter_call (default_adapter (st_adapter s)) signature inputs in
    (engine (length (st_history s)) r, log_request r s).

(** [Predictor.forward]: the mapping delegated to the engine. *)
Definition predictor_forward (p : Predictor) (input : Input) : M Output :=
  engine_call (p_signature p) input.

(** [Predictor.__call__] (lines 84-88). *)
Definition predictor_call (p : Predictor) (input : Input) : M Output :=
  output <- predictor_forward p input ;;
  (match validation p with
   | Some v =>
       ok <- validation_call v input output ;;
       if ok then ret tt else raise (AssertionError assert_msg)
   | None => ret tt
   end) ;;;
  predictor_forward p input.

End WithEngine.

(** ** Scopes and the Retrier *)

(** The context managers [Retrier.retry_context] returns. *)
Inductive Ctx :=
| NullContext
| DspyContext (adapter : Adapter).

(** [with ctx: body]: [contextlib.nullcontext()] does nothing;
    [dspy.context(adapter=a)] installs [a] and, on every exit path, restores
    the settings it found. *)
Definition with_ctx {A} (c : Ctx) (body : M A) : M A :=
  fun s =>
    match c with
    | NullContext => body s
    | DspyContext a =>
        let (r, s2) := body (log_scope (Enter a) (set_adapter (Some a) s)) in
        (r, log_scope Exit (set_adapter (st_adapter s) s2))
    end.

(** [Retrier.retry_context] (lines 123-134): [if not feedback] holds for
    [None] and for the empty string. *)
Definition retry_context (fb : option string) (s : St) : Ctx :=
  match fb with
  | None => NullContext
  | Some f =>
      if String.eqb f "" then NullContext
      else DspyContext (RetryAdapter (default_adapter (st_adapter s)) f)
  end.

(** [with self.retry_context(feedback=...): body]: the context is built from
    the settings at entry. *)
Definition with_retry_context {A} (fb : option string) (body : M A) : M A :=
  fun s => with_ctx (retry_context fb s) body s.

(** [Retrier(module, feedback_module, N, threshold)]; [self.module(input=...)]
    is any callable, such as [predictor_call engine p]. *)
Record Retrier := mkRetrier {
  module : Input -> M Output;
  feedback_module : Input -> Output -> Feedback;
  N : Z;
  threshold : Q
}.

(** [feedback.feedback if feedback else None]. *)
Definition prior_note (fb : option Feedback) : option string :=
  match fb with
  | Some f => feedback f
  | None => None
  end.

(** One iteration of the loop of [Retrier.forward] (lines 140-142). *)
Definition retrier_attempt (r : Retrier) (input : Input)
  (fb : option Feedback) : M (Output * Feedback) :=
  output <- with_retry_context (prior_note fb) (module r input) ;;
  f <- feedback_call (feedback_module r) input output ;;
  ret (output, f).

(** The loop of [Retrier.forward] with [n] iterations left (lines 139-145). *)
Fixpoint retrier_loop (r : Retrier) (input : Input) (n : nat)
  (fb : option Feedback) : M Output :=
  match n with
  | O => raise (RuntimeError exhausted_msg)
  | S n' =>
      p <- retrier_attempt r input fb ;;
      let '(output, f) := p in
      if Qle_bool (threshold r) (evaluation f) then ret output
      else retrier_loop r input n' (Some f)
  end.

(** [Retrier.forward] (lines 136-145): [for _ in range(self.N)]. *)
Definition retrier_forward (r : Retrier) (input : Input) : M Output :=
  retrier_loop r input (Z.to_nat (N r)) None.

(** A test spy around a module: counts its invocations. *)
Definition spy (m : Input -> M Output) : Input -> M Output :=
  fun input s => m input (bump_calls s).

(** ** The example of [main.py] *)

(** [class QA(dspy.Signature)]: [question -> answer]. *)
Definition QA : Signature := mkSignature [("question", "")] [("answer", "")].

Fixpoint count_spaces (s : string) : nat :=
  match s with
  | EmptyString => 0
  | String c s' => (if Ascii.eqb c " "%char then 1 else 0) + count_spaces s'
  end.

(** [QAFeedback.forward]: [output.answer.count(" ")] spaces cost
    [1 / (1 + count)]; [QAModule] outputs always carry [answer]. *)
Definition qa_feedback (input : Input) (output : Output) : Feedback :=
  let answer := match dict_get output "answer" with Some a => a | None => "" end in
  match count_spaces answer with
  | O => mkFeedback 1 None
  | count => mkFeedback (1 / (1 + inject_Z (Z.of_nat count)))
               (Some "The answer is too long")
  end.

Definition question (q : string) : Input := [("question", q)].
Definition answer (a : string) : Output := [("answer", a)].

Definition st0 : St := mkSt None [] [] [] 0.

(** ** Auxiliary lemmas *)

(** The requests the engine received between two states: the LM history
    only grows, and each new entry satisfies [P]. *)
Definition requests_since (s s' : St) (P : Request -> Prop) : Prop :=
  exists new, st_history s' = st_history s ++ new /\ Forall P new.

(** Whether a request carries a hint field, in its signature or payload. *)
Definition has_hint_field (rq : Request) : bool :=
  existsb (fun f => String.eqb (fst f) hint_name) (sig_inputs (req_signature rq))
  || match dict_get (req_inputs rq) hint_name with Some _ => true | None => false end.

Definition is_base (a : Adapter) : bool :=
  match a with BaseAdapter _ => true | RetryAdapter _ _ => false end.

Lemma requests_since_refl s P : requests_since s s P.
Proof. exists []. split; [symmetry; apply app_nil_r | constructor]. Qed.

Lemma requests_since_one s r P :
  P r -> requests_since s (log_request r s) P.
Proof. intro H. exists [r]. split; [reflexivity | constructor; auto]. Qed.

Lemma requests_since_trans s1 s2 s3 P :
  requests_since s1 s2 P -> requests_since s2 s3 P -> requests_since s1 s3 P.
Proof.
  intros [n1 [E1 F1]] [n2 [E2 F2]]. exists (n1 ++ n2). split.
  - rewrite E2, E1, app_assoc. reflexivity.
  - apply Forall_app; auto.
Qed.

Lemma requests_since_mono s s' (P Q : Request -> Prop) :
  (forall r, P r -> Q r) -> requests_since s s' P -> requests_since s s' Q.
Proof.
  intros H [n [E F]]. exists n. split; auto. eapply Forall_impl; eauto.
Qed.

(** Everything [Predictor.__call__] does to the state: it leaves the adapter,
    the scopes and the spy counter alone, and every engine request it makes
    is built by the ambient adapter from the signature and the input. *)
Ltac solve_requests :=
  eexists; split; [simpl; rewrite <- ?app_assoc; reflexivity
                  | repeat constructor].

Lemma predictor_call_frame engine p input s :
  let s' := snd (predictor_call engine p input s) in
  st_adapter s' = st_adapter s /\ st_scopes s' = st_scopes s /\
  st_calls s' = st_calls s /\
  requests_since s s' (fun r =>
    r = adapter_call (default_adapter (st_adapter s)) (p_signature p) input).
Proof.
  unfold predictor_call, predictor_forward, engine_call, bind, ret, raise.
  cbn zeta.
  destruct (engine _ _) as [o|e]; [| repeat split; solve_requests].
  destruct (validation p) as [v|].
  - unfold validation_call, bind, feedback_call, ret.
    destruct (Qle_bool _ _); simpl; repeat split; solve_requests.
  - simpl. repeat split; solve_requests.
Qed.

Lemma requests_since_hist s1 s2 s3 s4 P :
  st_history s2 = st_history s1 -> requests_since s2 s3 P ->
  st_history s4 = st_history s3 -> requests_since s1 s4 P.
Proof.
  intros E1 [n [E F]] E3. exists n. split; auto. congruence.
Qed.

Lemma dict_get_set d k v : dict_get (dict_set d k v) k = Some v.
Proof.
  induction d as [|[k' v'] d IH]; simpl.
  - rewrite String.eqb_refl. reflexivity.
  - destruct (String.eqb k k') eqn:E; simpl.
    + apply String.eqb_eq in E. subst. rewrite String.eqb_refl. reflexivity.
    + rewrite E. exact IH.
Qed.

(** [dspy.context] restores the adapter on every exit path of its body. *)
Lemma with_dspy_context_restores {A} a (body : M A) s :
  st_adapter (snd (with_ctx (DspyContext a) body s)) = st_adapter s /\
  exists l, st_scopes (snd (with_ctx (DspyContext a) body s)) = l ++ [Exit].
Proof.
  simpl. destruct (body _) as [r s2]. simpl. split; eauto.
Qed.

(** The adapter a scope built by [retry_context] makes active. *)
Definition scope_adapter (c : Ctx) (ambient : option Adapter) : Adapter :=
  match c with
  | NullContext => default_adapter ambient
  | DspyContext a => a
  end.

(** A Predictor call inside a retry scope: the adapter is restored and every
    engine request is built by the scope's adapter. *)
Lemma scoped_predictor_call engine p input note s :
  let s' := snd (with_retry_context note (predictor_call engine p input) s) in
  st_adapter s' = st_adapter s /\
  requests_since s s' (fun r =>
    r = adapter_call (scope_adapter (retry_context note s) (st_adapter s))
          (p_signature p) input).
Proof.
  unfold with_retry_context.
  destruct (retry_context note s) as [|a] eqn:Ec; simpl.
  - destruct (predictor_call_frame engine p input s) as [H1 [_ [_ H4]]].
    split; auto.
  - match goal with |- context [predictor_call engine p input ?s1] =>
      destruct (predictor_call_frame engine p input s1) as [H1 [_ [_ H4]]];
      destruct (predictor_call engine p input s1) as [r s2] eqn:E end.
    simpl in *. split; [reflexivity|].
    eapply requests_since_hist; [| exact H4 |]; reflexivity.
Qed.

(** What one attempt of the Retrier leaves behind besides the trace entry is
    what its scoped module call left behind. *)
Lemma retrier_attempt_frame r input fb s :
  let s1 := snd (with_retry_context (prior_note fb) (module r input) s) in
  st_adapter (snd (retrier_attempt r input fb s)) = st_adapter s1 /\
  st_history (snd (retrier_attempt r input fb s)) = st_history s1 /\
  st_scopes (snd (retrier_attempt r input fb s)) = st_scopes s1 /\
  st_calls (snd (retrier_attempt r input fb s)) = st_calls s1.
Proof.
  unfold retrier_attempt, bind, feedback_call, ret.
  destruct (with_retry_context _ _ s) as [[o|e] s1]; simpl; auto.
Qed.

Lemma no_hint_base b sig input :
  existsb (fun f => String.eqb (fst f) hint_name) (sig_inputs sig) = false ->
  dict_get input hint_name = None ->
  has_hint_field (mkRequest b sig input) = false.
Proof. intros H1 H2. unfold has_hint_field. simpl. rewrite H1, H2. reflexivity. Qed.

(** ** Claims *)

(** Claim C7: [Validation.check(input, output)] is true exactly when the
    wrapped FeedbackModule's score for the pair is at least the
    [validation_threshold] fixed at construction (the feedback call is also
    recorded in the trace). *)
Theorem validation_check_iff v input output s :
  validation_call v input output s =
    (Ok (Qle_bool (validation_threshold v)
           (evaluation (v_feedback_module v input output))),
     log_trace (input, output, v_feedback_module v input output) s) /\
  (Qle_bool (validation_threshold v)
     (evaluation (v_feedback_module v input output)) = true <->
   (validation_threshold v <= evaluation (v_feedback_module v input output))%Q).
Proof. split; [reflexivity | apply Qle_bool_iff]. Qed.

(** Claim C10: with [N <= 0], [range(N)] is empty: [Retrier.forward] raises
    the exhaustion error at once and leaves the state untouched, so no
    Predictor call, no feedback call and no scope happens. *)
Theorem retrier_nonpositive_N r input s (HN : (N r <= 0)%Z) :
  retrier_forward r input s = (Raise (RuntimeError exhausted_msg), s).
Proof.
  unfold retrier_forward.
  replace (Z.to_nat (N r)) with 0%nat by lia. reflexivity.
Qed.

Definition engine_const (a : string) : Engine := fun _ _ => Ok (answer a).

Definition p_plain : Predictor := mkPredictor QA None.

Lemma retrier_nonpositive_N_witness :
  (N (mkRetrier (predictor_call (engine_const "Dog") p_plain) qa_feedback 0 1) <= 0)%Z /\
  retrier_forward (mkRetrier (predictor_call (engine_const "Dog") p_plain) qa_feedback 0 1)
    (question "What animal is a man's best friend?") st0 =
  (Raise (RuntimeError exhausted_msg), st0).
Proof.
  split; [simpl; lia|].
  apply retrier_nonpositive_N. simpl. lia.
Defined.

(** Claim C3: a Predictor with a Validation whose check fails on the
    produced output raises the validation failure (the [AssertionError]
    "Output failed to pass validation" of line 87) instead of returning an
    Output; in particular it does so whenever the validation's
    FeedbackModule scores every output below [validation_threshold]. *)
Theorem predictor_validation_gate engine p v input s o s1
  (Hv : validation p = Some v)
  (Hfwd : predictor_forward engine p input s = (Ok o, s1)) :
  (fst (validation_call v input o s1) = Ok false ->
   fst (predictor_call engine p input s) = Raise (AssertionError assert_msg)) /\
  ((forall o', (evaluation (v_feedback_module v input o') <
                validation_threshold v)%Q) ->
   fst (predictor_call engine p input s) = Raise (AssertionError assert_msg)).
Proof.
  assert (Hgate : fst (validation_call v input o s1) = Ok false ->
    fst (predictor_call engine p input s) = Raise (AssertionError assert_msg)).
  { intro Hc. unfold predictor_call. unfold bind at 1. rewrite Hfwd, Hv.
    unfold validation_call, bind, feedback_call, ret, raise in *. simpl in *.
    inversion Hc as [Hb]. rewrite Hb. reflexivity. }
  split; [exact Hgate|].
  intro Hlow. apply Hgate. unfold validation_call, bind, feedback_call, ret.
  simpl. f_equal.
  destruct (Qle_bool _ _) eqn:E; [|reflexivity].
  apply Qle_bool_iff in E. specialize (Hlow o).
  exfalso. apply (Qlt_not_le _ _ Hlow E).
Qed.

Definition p_validated : Predictor :=
  mkPredictor QA (Some (mkValidation qa_feedback 1)).

Lemma predictor_validation_gate_witness :
  let input := question "What land animal has a shell?" in
  let eng := engine_const "Tortoise Tortoise" in
  validation p_validated = Some (mkValidation qa_feedback 1) /\
  predictor_forward eng p_validated input st0 =
    (Ok (answer "Tortoise Tortoise"),
     snd (predictor_forward eng p_validated input st0)) /\
  fst (predictor_call eng p_validated input st0) =
    Raise (AssertionError assert_msg).
Proof.
  simpl. split; [reflexivity|]. split; [reflexivity|].
  apply (proj1 (predictor_validation_gate (engine_const "Tortoise Tortoise")
    p_validated (mkValidation qa_feedback 1)
    (question "What land animal has a shell?") st0
    (answer "Tortoise Tortoise")
    (snd (predictor_forward (engine_const "Tortoise Tortoise") p_validated
       (question "What land animal has a shell?") st0))
    eq_refl eq_refl)).
  reflexivity.
Defined.

(** An engine whose answers change between invocations. *)
Definition engine_c1 : Engine :=
  fun n _ => match n with
             | O => Ok (answer "Tortoise")
             | _ => Ok (answer "Tortoise Tortoise")
             end.

(** Claim C1 (failing input): [Predictor.__call__] invokes the engine twice
    (line 85 and line 88) and returns the second Output, not the one the
    validation gate checked: here "Tortoise" passes validation and
    "Tortoise Tortoise", which fails it, is returned. *)
Theorem predictor_call_invokes_engine_twice :
  let (r, s') := predictor_call engine_c1 p_validated
                   (question "What land animal has a shell?") st0 in
  r = Ok (answer "Tortoise Tortoise") /\
  length (st_history s') = 2%nat /\
  st_trace s' = [(question "What land animal has a shell?",
                  answer "Tortoise", mkFeedback 1 None)] /\
  Qle_bool 1 (evaluation (qa_feedback (question "What land animal has a shell?")
                            (answer "Tortoise Tortoise"))) = false.
Proof. vm_compute. repeat split; reflexivity. Qed.

(** Claim C4: in a Retrier run around a Predictor, with a plain ambient
    adapter [b]:
    - the first attempt (no prior feedback) builds every request with the
      unmodified adapter, so no request has a hint field when the signature
      and the input have none;
    - an attempt whose prior feedback carries the non-empty note [X] builds
      every request against the signature extended by one [hint_] input
      field, with [X] as the [hint_] value of the payload;
    - each attempt leaves the ambient adapter as it found it, so the next
      attempt wraps the same base adapter again (no note accumulates);
    - the next attempt receives exactly the feedback of the one before. *)
Theorem retrier_feedback_threading engine p fm n thr input :
  let r := mkRetrier (predictor_call engine p) fm n thr in
  (forall s b,
     default_adapter (st_adapter s) = BaseAdapter b ->
     existsb (fun f => String.eqb (fst f) hint_name)
       (sig_inputs (p_signature p)) = false ->
     dict_get input hint_name = None ->
     requests_since s (snd (retrier_attempt r input None s)) (fun rq =>
       rq = mkRequest b (p_signature p) input /\ has_hint_field rq = false)) /\
  (forall s b f X,
     default_adapter (st_adapter s) = BaseAdapter b ->
     feedback f = Some X -> X <> "" ->
     requests_since s (snd (retrier_attempt r input (Some f) s)) (fun rq =>
       rq = mkRequest b (sig_append (p_signature p) hint_name hint_desc)
              (dict_set input hint_name X) /\
       dict_get (req_inputs rq) hint_name = Some X)) /\
  (forall fb s, st_adapter (snd (retrier_attempt r input fb s)) = st_adapter s) /\
  (forall k fb s,
     retrier_loop r input (S k) fb s =
     (pf <- retrier_attempt r input fb ;;
      let '(output, f) := pf in
      if Qle_bool thr (evaluation f) then ret output
      else retrier_loop r input k (Some f)) s).
Proof.
  intro r. split; [|split; [|split]].
  - intros s b Hb Hsig Hin.
    destruct (retrier_attempt_frame r input None s) as [_ [Hh _]].
    destruct (scoped_predictor_call engine p input None s) as [_ Hreq].
    eapply requests_since_hist; [reflexivity | | exact Hh].
    eapply requests_since_mono; [|exact Hreq].
    intros rq ->. simpl. rewrite Hb. simpl. split; [reflexivity|].
    apply no_hint_base; assumption.
  - intros s b f X Hb Hf HX.
    destruct (retrier_attempt_frame r input (Some f) s) as [_ [Hh _]].
    destruct (scoped_predictor_call engine p input (Some X) s) as [_ Hreq].
    simpl prior_note in Hh. rewrite Hf in Hh.
    eapply requests_since_hist; [reflexivity | | exact Hh].
    eapply requests_since_mono; [|exact Hreq].
    intros rq ->. unfold retry_context.
    apply String.eqb_neq in HX. rewrite HX. simpl. rewrite Hb. simpl.
    split; [reflexivity | apply dict_get_set].
  - intros fb s.
    destruct (retrier_attempt_frame r input fb s) as [Ha _].
    rewrite Ha. apply (scoped_predictor_call engine p input).
  - reflexivity.
Qed.

(** An engine that answers tersely only when it is given a hint. *)
Definition engine_hint : Engine :=
  fun _ rq => match dict_get (req_inputs rq) hint_name with
              | Some _ => Ok (answer "Tortoise")
              | None => Ok (answer "Tortoise Tortoise")
              end.

Definition too_long : Feedback :=
  mkFeedback (1 / 2) (Some "The answer is too long").

Lemma retrier_feedback_threading_witness :
  default_adapter (st_adapter st0) = BaseAdapter "ChatAdapter" /\
  feedback too_long = Some "The answer is too long" /\
  "The answer is too long" <> "" /\
  requests_since st0
    (snd (retrier_attempt
            (mkRetrier (predictor_call engine_hint p_plain) qa_feedback 3 1)
            (question "What land animal has a shell?") (Some too_long) st0))
    (fun rq =>
       rq = mkRequest "ChatAdapter" (sig_append QA hint_name hint_desc)
              (dict_set (question "What land animal has a shell?") hint_name
                 "The answer is too long") /\
       dict_get (req_inputs rq) hint_name = Some "The answer is too long").
Proof.
  split; [reflexivity|]. split; [reflexivity|]. split; [discriminate|].
  apply (proj1 (proj2 (retrier_feedback_threading engine_hint p_plain
    qa_feedback 3 1 (question "What land animal has a shell?"))));
    [reflexivity | reflexivity | discriminate].
Defined.

(** The end-to-end example of the specification: "Tortoise Tortoise" on
    attempt 1 (score 1/2, note "The answer is too long"), "Tortoise" on
    attempt 2 once the hint is present; [N = 3], [threshold = 1]. *)
Example retrier_tortoise :
  let (r, s') := retrier_forward
                   (mkRetrier (predictor_call engine_hint p_plain) qa_feedback 3 1)
                   (question "What land animal has a shell?") st0 in
  r = Ok (answer "Tortoise") /\
  length (st_trace s') = 2%nat /\
  map (fun rq => dict_get (req_inputs rq) hint_name) (st_history s') =
    [None; None; Some "The answer is too long"; Some "The answer is too long"] /\
  st_adapter s' = None.
Proof. vm_compute. repeat split; reflexivity. Qed.

(** Claim C9: an absent or empty prior note opens the passthrough scope
    ([contextlib.nullcontext()]): the attempt runs exactly as without any
    scope, and a Predictor's requests are built by the unmodified ambient
    adapter, with no hint field when the signature and the input have none;
    only a non-empty note yields a [RetryAdapter] scope. *)
Theorem retry_context_passthrough engine p input :
  (forall A note (body : M A) s,
     (note = None \/ note = Some "") ->
     with_retry_context note body s = body s) /\
  (forall note s b,
     (note = None \/ note = Some "") ->
     default_adapter (st_adapter s) = BaseAdapter b ->
     existsb (fun f => String.eqb (fst f) hint_name)
       (sig_inputs (p_signature p)) = false ->
     dict_get input hint_name = None ->
     requests_since s (snd (with_retry_context note (predictor_call engine p input) s))
       (fun rq => rq = mkRequest b (p_signature p) input /\
                  has_hint_field rq = false)) /\
  (forall X s, X <> "" ->
     retry_context (Some X) s =
     DspyContext (RetryAdapter (default_adapter (st_adapter s)) X)).
Proof.
  split; [|split].
  - intros A note body s [-> | ->]; reflexivity.
  - intros note s b Hn Hb Hsig Hin.
    destruct (scoped_predictor_call engine p input note s) as [_ Hreq].
    eapply requests_since_mono; [|exact Hreq].
    intros rq ->. destruct Hn as [-> | ->]; simpl; rewrite Hb; simpl;
      (split; [reflexivity | apply no_hint_base; assumption]).
  - intros X s HX. unfold retry_context.
    apply String.eqb_neq in HX. rewrite HX. reflexivity.
Qed.

Lemma retry_context_passthrough_witness :
  default_adapter (st_adapter st0) = BaseAdapter "ChatAdapter" /\
  requests_since st0
    (snd (with_retry_context (Some "")
            (predictor_call engine_hint p_plain
               (question "What land animal has a shell?")) st0))
    (fun rq => rq = mkRequest "ChatAdapter" QA
                      (question "What land animal has a shell?") /\
               has_hint_field rq = false).
Proof.
  split; [reflexivity|].
  apply (proj1 (proj2 (retry_context_passthrough engine_hint p_plain
    (question "What land animal has a shell?"))));
    [right; reflexivity | reflexivity | reflexivity | reflexivity].
Defined.

(** A relation between the state before and after an attempt that is
    reflexive and transitive also holds across the whole loop. *)
Lemma retrier_loop_preserves (P : St -> St -> Prop) r input
  (Hrefl : forall s, P s s)
  (Htrans : forall s1 s2 s3, P s1 s2 -> P s2 s3 -> P s1 s3)
  (Hatt : forall fb s, P s (snd (retrier_attempt r input fb s))) :
  forall n fb s, P s (snd (retrier_loop r input n fb s)).
Proof.
  induction n as [|n IH]; intros fb s; simpl; [apply Hrefl|].
  unfold bind at 1. specialize (Hatt fb s).
  destruct (retrier_attempt r input fb s) as [[[o f]|e] s1]; simpl in *;
    [|exact Hatt].
  destruct (Qle_bool _ _); simpl; [exact Hatt|].
  eapply Htrans; [exact Hatt | apply IH].
Qed.

(** The state a scope hands to its body keeps the spy counter, and the scope
    passes the body's outcome and counter through. *)
Lemma with_retry_context_body {A} note (body : M A) s :
  exists s_in, st_calls s_in = st_calls s /\
    fst (with_retry_context note body s) = fst (body s_in) /\
    st_calls (snd (with_retry_context note body s)) = st_calls (snd (body s_in)).
Proof.
  unfold with_retry_context. destruct (retry_context note s) as [|a].
  - exists s. auto.
  - exists (log_scope (Enter a) (set_adapter (Some a) s)). simpl.
    destruct (body _) as [x s2]. simpl. auto.
Qed.

(** Claim C5: the adapter active after [Retrier.forward] is the one active
    before, whether it returns or raises (for a module that does not itself
    reconfigure the adapter, such as [Predictor.__call__]); each attempt's
    scope is left, with the adapter restored, before the feedback is
    computed, and a [dspy.context] scope restores it and records its exit on
    every outcome of its body, exceptions included. *)
Theorem retrier_scope_isolation r input
  (Hmod : forall s, st_adapter (snd (module r input s)) = st_adapter s) :
  (forall s, st_adapter (snd (retrier_forward r input s)) = st_adapter s) /\
  (forall fb s,
     st_adapter (snd (with_retry_context (prior_note fb) (module r input) s)) =
     st_adapter s) /\
  (forall A note (body : M A) s a,
     retry_context note s = DspyContext a ->
     st_adapter (snd (with_retry_context note body s)) = st_adapter s /\
     exists l, st_scopes (snd (with_retry_context note body s)) = l ++ [Exit]).
Proof.
  assert (Hscope : forall fb s,
    st_adapter (snd (with_retry_context (prior_note fb) (module r input) s)) =
    st_adapter s).
  { intros fb s. unfold with_retry_context.
    destruct (retry_context _ s) as [|a]; [apply Hmod|].
    apply with_dspy_context_restores. }
  split; [|split; [exact Hscope|]].
  - intro s. unfold retrier_forward.
    apply (retrier_loop_preserves (fun s1 s2 => st_adapter s2 = st_adapter s1));
      [reflexivity | congruence |].
    intros fb s1. destruct (retrier_attempt_frame r input fb s1) as [Ha _].
    rewrite Ha. apply Hscope.
  - intros A note body s a Hc. unfold with_retry_context. rewrite Hc.
    apply with_dspy_context_restores.
Qed.

Lemma retrier_scope_isolation_witness :
  (forall s, st_adapter (snd (predictor_call engine_hint p_plain
                               (question "What land animal has a shell?") s)) =
             st_adapter s) /\
  st_adapter (snd (retrier_forward
     (mkRetrier (predictor_call engine_hint p_plain) qa_feedback 3 1)
     (question "What land animal has a shell?")
     (mkSt (Some (BaseAdapter "JSONAdapter")) [] [] [] 0))) =
  Some (BaseAdapter "JSONAdapter").
Proof.
  split; [intro s; apply (proj1 (predictor_call_frame _ _ _ s))|].
  apply (proj1 (retrier_scope_isolation
    (mkRetrier (predictor_call engine_hint p_plain) qa_feedback 3 1)
    (question "What land animal has a shell?")
    (fun s => proj1 (predictor_call_frame _ _ _ s)))).
Defined.

(** Claim C6: an attempt whose module call returns [o] with a score of at
    least the threshold ends the run with [o], nothing further happening;
    a score strictly below the threshold goes on to the next attempt with
    this feedback; and with [N >= 1] and a FeedbackModule that always scores
    exactly the threshold, the first attempt succeeds, the Retrier having
    added only the trace entry to what the module did (no scope opened). *)
Theorem retrier_first_passing r input n fb s o s1
  (Hcall : with_retry_context (prior_note fb) (module r input) s = (Ok o, s1)) :
  let f := feedback_module r input o in
  ((threshold r <= evaluation f)%Q ->
   retrier_loop r input (S n) fb s = (Ok o, log_trace (input, o, f) s1)) /\
  ((evaluation f < threshold r)%Q ->
   retrier_loop r input (S n) fb s =
   retrier_loop r input n (Some f) (log_trace (input, o, f) s1)) /\
  (fb = None -> (1 <= N r)%Z ->
   (forall o', evaluation (feedback_module r input o') == threshold r)%Q ->
   retrier_forward r input s = (Ok o, log_trace (input, o, f) s1) /\
   st_scopes (snd (retrier_forward r input s)) = st_scopes (snd (module r input s))).
Proof.
  intro f.
  assert (Hstep : retrier_loop r input (S n) fb s =
    if Qle_bool (threshold r) (evaluation f)
    then (Ok o, log_trace (input, o, f) s1)
    else retrier_loop r input n (Some f) (log_trace (input, o, f) s1)).
  { simpl. unfold retrier_attempt, bind, feedback_call, ret.
    rewrite Hcall. destruct (Qle_bool _ _); reflexivity. }
  assert (Hpass : (threshold r <= evaluation f)%Q ->
    retrier_loop r input (S n) fb s = (Ok o, log_trace (input, o, f) s1)).
  { intro Hle. rewrite Hstep. apply Qle_bool_iff in Hle. rewrite Hle.
    reflexivity. }
  split; [exact Hpass|split].
  - intro Hlt. rewrite Hstep. destruct (Qle_bool _ _) eqn:E; [|reflexivity].
    apply Qle_bool_iff in E. exfalso. exact (Qlt_not_le _ _ Hlt E).
  - intros Hfb HN Heq. subst fb.
    assert (Hrun : retrier_forward r input s = (Ok o, log_trace (input, o, f) s1)).
    { unfold retrier_forward.
      destruct (Z.to_nat (N r)) as [|k] eqn:E; [lia|].
      assert (Hk : retrier_loop r input (S k) None s =
                   (Ok o, log_trace (input, o, f) s1)).
      { simpl. unfold retrier_attempt, bind, feedback_call, ret.
        rewrite Hcall.
        assert (Hle : Qle_bool (threshold r) (evaluation f) = true).
        { apply Qle_bool_iff, Qle_lteq. right. apply Qeq_sym, Heq. }
        unfold f in Hle. rewrite Hle. reflexivity. }
      exact Hk. }
    split; [exact Hrun|]. rewrite Hrun.
    simpl in Hcall. unfold with_retry_context in Hcall. simpl in Hcall.
    rewrite Hcall. reflexivity.
Qed.

(** A FeedbackModule that always scores exactly the threshold [1]. *)
Definition fm_at_threshold (input : Input) (output : Output) : Feedback :=
  mkFeedback 1 None.

Definition r_tortoise : Retrier :=
  mkRetrier (predictor_call (engine_const "Tortoise") p_plain) fm_at_threshold 3 1.

Lemma retrier_first_passing_witness :
  let input := question "What land animal has a shell?" in
  with_retry_context (prior_note None) (module r_tortoise input) st0 =
    (Ok (answer "Tortoise"), snd (module r_tortoise input st0)) /\
  retrier_forward r_tortoise input st0 =
    (Ok (answer "Tortoise"),
     log_trace (input, answer "Tortoise",
                feedback_module r_tortoise input (answer "Tortoise"))
       (snd (module r_tortoise input st0))).
Proof.
  simpl. split; [reflexivity|].
  refine (proj1 (proj2 (proj2 (retrier_first_passing r_tortoise
    (question "What land animal has a shell?") 0 None st0 (answer "Tortoise")
    (snd (module r_tortoise (question "What land animal has a shell?") st0))
    eq_refl)) eq_refl _ _)).
  - simpl. lia.
  - intro o'. reflexivity.
Defined.

(** Claim C8: an exception raised by the module call of an attempt
    (the engine's, or a Predictor's validation failure) is not caught: the
    Retrier raises it with the state the scoped call left, so the feedback
    is not computed and no further attempt runs, whatever number of attempts
    remained. *)
Theorem retrier_error_propagates r input n fb s e s1
  (Hcall : with_retry_context (prior_note fb) (module r input) s = (Raise e, s1)) :
  retrier_loop r input (S n) fb s = (Raise e, s1) /\
  (fb = None -> (1 <= N r)%Z -> retrier_forward r input s = (Raise e, s1)).
Proof.
  assert (Hstep : forall k, retrier_loop r input (S k) fb s = (Raise e, s1)).
  { intro k. simpl. unfold retrier_attempt, bind. rewrite Hcall. reflexivity. }
  split; [apply Hstep|].
  intros -> HN. unfold retrier_forward.
  destruct (Z.to_nat (N r)) as [|k] eqn:E; [lia|]. apply Hstep.
Qed.

(** A Retrier around a Predictor whose validation rejects every answer of
    its engine. *)
Definition r_rejected : Retrier :=
  mkRetrier (predictor_call (engine_const "Tortoise Tortoise") p_validated)
    qa_feedback 3 1.

Lemma retrier_error_propagates_witness :
  let input := question "What land animal has a shell?" in
  with_retry_context (prior_note None) (module r_rejected input) st0 =
    (Raise (AssertionError assert_msg), snd (module r_rejected input st0)) /\
  retrier_forward r_rejected input st0 =
    (Raise (AssertionError assert_msg), snd (module r_rejected input st0)).
Proof.
  simpl. split; [reflexivity|].
  refine (proj2 (retrier_error_propagates r_rejected
    (question "What land animal has a shell?") 2 None st0
    (AssertionError assert_msg)
    (snd (module r_rejected (question "What land animal has a shell?") st0))
    eq_refl) eq_refl _).
  simpl. lia.
Defined.

(** The Retrier whose module is wrapped in the spy. *)
Definition spied (r : Retrier) : Retrier :=
  mkRetrier (spy (module r)) (feedback_module r) (N r) (threshold r).

(** Claim C2: when the module always returns an Output and the
    FeedbackModule scores every output strictly below the threshold, the
    Retrier calls the module exactly [N] times and then raises the
    exhaustion error ([RuntimeError("Could not obtain proper result")],
    line 145) to its caller. *)
Theorem retrier_exhausts r input
  (HN : (1 <= N r)%Z)
  (Hok : forall s, exists o, fst (module r input s) = Ok o)
  (Hcalls : forall s, st_calls (snd (module r input s)) = st_calls s)
  (Hlow : forall o, (evaluation (feedback_module r input o) < threshold r)%Q) :
  forall s,
  fst (retrier_forward (spied r) input s) = Raise (RuntimeError exhausted_msg) /\
  st_calls (snd (retrier_forward (spied r) input s)) =
    (st_calls s + Z.to_nat (N r))%nat.
Proof.
  assert (Hloop : forall n fb s,
    fst (retrier_loop (spied r) input n fb s) = Raise (RuntimeError exhausted_msg) /\
    st_calls (snd (retrier_loop (spied r) input n fb s)) = (st_calls s + n)%nat).
  { induction n as [|n IH]; intros fb s; [simpl; split; [reflexivity | lia]|].
    destruct (with_retry_context_body (prior_note fb) (spy (module r) input) s)
      as [s_in [Hin [Hres Hcnt]]].
    destruct (with_retry_context (prior_note fb) (spy (module r) input) s)
      as [x s2] eqn:Ew.
    simpl in Hres, Hcnt. unfold spy in Hres, Hcnt.
    destruct (Hok (bump_calls s_in)) as [o Ho].
    rewrite Ho in Hres. subst x.
    rewrite Hcalls in Hcnt. simpl in Hcnt.
    assert (Hlt : Qle_bool (threshold r) (evaluation (feedback_module r input o))
                  = false).
    { destruct (Qle_bool _ _) eqn:E; [|reflexivity].
      apply Qle_bool_iff in E. exfalso. exact (Qlt_not_le _ _ (Hlow o) E). }
    assert (Hstep : retrier_loop (spied r) input (S n) fb s =
      retrier_loop (spied r) input n (Some (feedback_module r input o))
        (log_trace (input, o, feedback_module r input o) s2)).
    { simpl. unfold retrier_attempt, bind. simpl. rewrite Ew. simpl.
      rewrite Hlt. reflexivity. }
    rewrite Hstep.
    destruct (IH (Some (feedback_module r input o))
                 (log_trace (input, o, feedback_module r input o) s2))
      as [IH1 IH2].
    split; [exact IH1|]. rewrite IH2. simpl. lia. }
  intro s. apply Hloop.
Qed.

(** A FeedbackModule that always finds the answer too long. *)
Definition fm_below (input : Input) (output : Output) : Feedback := too_long.

Definition r_exhausted : Retrier :=
  mkRetrier (predictor_call (engine_const "Tortoise") p_plain) fm_below 3 1.

Lemma retrier_exhausts_witness :
  let input := question "What land animal has a shell?" in
  fst (retrier_forward (spied r_exhausted) input st0) =
    Raise (RuntimeError exhausted_msg) /\
  st_calls (snd (retrier_forward (spied r_exhausted) input st0)) = 3%nat.
Proof.
  apply (retrier_exhausts r_exhausted (question "What land animal has a shell?")).
  - simpl. lia.
  - intro s. eexists. reflexivity.
  - intro s. reflexivity.
  - intro o. reflexivity.
Defined.

(** ** Further properties of the code *)

Lemma qa_score_bounds (c : nat) :
  (0 < 1 / (1 + inject_Z (Z.of_nat (S c))) < 1)%Q.
Proof.
  assert (Hq : (1 < 1 + inject_Z (Z.of_nat (S c)))%Q).
  { rewrite <- (Qplus_0_r 1) at 1. apply Qplus_lt_r.
    unfold Qlt. simpl. lia. }
  assert (Hpos : (0 < 1 + inject_Z (Z.of_nat (S c)))%Q).
  { apply Qlt_trans with 1; [reflexivity | exact Hq]. }
  split.
  - apply Qlt_shift_div_l; [exact Hpos|]. rewrite Qmult_0_l. reflexivity.
  - apply Qlt_shift_div_r; [exact Hpos|]. rewrite Qmult_1_l. exact Hq.
Qed.

(** [QAFeedback.forward] (main.py lines 48-53): an answer without spaces
    scores [1] with no note; an answer with [c > 0] spaces scores
    [1 / (1 + c)], strictly between [0] and [1], with the note
    "The answer is too long". *)
Theorem qa_feedback_spec input output a
  (Ha : dict_get output "answer" = Some a) :
  (count_spaces a = 0%nat -> qa_feedback input output = mkFeedback 1 None) /\
  (count_spaces a <> 0%nat ->
   evaluation (qa_feedback input output) =
     (1 / (1 + inject_Z (Z.of_nat (count_spaces a))))%Q /\
   feedback (qa_feedback input output) = Some "The answer is too long" /\
   (0 < evaluation (qa_feedback input output) < 1)%Q).
Proof.
  unfold qa_feedback. rewrite Ha. split.
  - intros ->. reflexivity.
  - intro Hc. destruct (count_spaces a) as [|c]; [congruence|].
    simpl. split; [reflexivity|]. split; [reflexivity|].
    apply qa_score_bounds.
Qed.

Lemma qa_feedback_spec_witness :
  dict_get (answer "Tortoise Tortoise") "answer" = Some "Tortoise Tortoise" /\
  feedback (qa_feedback (question "What land animal has a shell?")
              (answer "Tortoise Tortoise")) = Some "The answer is too long".
Proof.
  split; [reflexivity|].
  apply (proj2 (qa_feedback_spec (question "What land animal has a shell?")
    (answer "Tortoise Tortoise") "Tortoise Tortoise" eq_refl)).
  discriminate.
Defined.

(** [Validation(feedback_module=QAFeedback(), validation_threshold=1.0)], as
    [main.py] builds it (lines 79-81), accepts an answer exactly when it has
    no space. *)
Theorem qa_validation_no_spaces input output a s
  (Ha : dict_get output "answer" = Some a) :
  fst (validation_call (mkValidation qa_feedback 1) input output s) =
  Ok (Nat.eqb (count_spaces a) 0).
Proof.
  simpl. f_equal. unfold qa_feedback. rewrite Ha.
  destruct (count_spaces a) as [|c]; [reflexivity|]. simpl.
  destruct (Qle_bool _ _) eqn:E; [|reflexivity].
  apply Qle_bool_iff in E. exfalso.
  exact (Qlt_not_le _ _ (proj2 (qa_score_bounds c)) E).
Qed.

Lemma qa_validation_no_spaces_witness :
  dict_get (answer "Dog") "answer" = Some "Dog" /\
  fst (validation_call (mkValidation qa_feedback 1)
         (question "What animal is a man's best friend?") (answer "Dog") st0) =
  Ok true.
Proof.
  split; [reflexivity|].
  apply (qa_validation_no_spaces (question "What animal is a man's best friend?")
    (answer "Dog") "Dog" st0 eq_refl).
Defined.

Lemma dict_get_set_other d k k' v :
  k' <> k -> dict_get (dict_set d k v) k' = dict_get d k'.
Proof.
  intro Hne. induction d as [|[k0 v0] d IH]; simpl.
  - apply String.eqb_neq in Hne. rewrite Hne. reflexivity.
  - destruct (String.eqb k k0) eqn:E; simpl.
    + apply String.eqb_eq in E. subst k0.
      apply String.eqb_neq in Hne. rewrite Hne. reflexivity.
    + destruct (String.eqb k' k0); [reflexivity | exact IH].
Qed.

(** The base adapter at the bottom of a chain of [RetryAdapter]s. *)
Fixpoint base_name (a : Adapter) : string :=
  match a with
  | BaseAdapter b => b
  | RetryAdapter a' _ => base_name a'
  end.

(** The note of the innermost [RetryAdapter] of a chain, if any. *)
Fixpoint innermost_note (a : Adapter) : option string :=
  match a with
  | BaseAdapter _ => None
  | RetryAdapter a' fb =>
      match innermost_note a' with
      | Some x => Some x
      | None => Some fb
      end
  end.

(** [RetryAdapter.__call__] (lines 99-103), through any chain of wrapped
    adapters: the request reaches the bottom base adapter with the output
    fields unchanged and every input value other than [hint_] unchanged. *)
Theorem adapter_call_preserves a sig inputs :
  let rq := adapter_call a sig inputs in
  req_adapter rq = base_name a /\
  sig_outputs (req_signature rq) = sig_outputs sig /\
  (forall k, k <> hint_name -> dict_get (req_inputs rq) k = dict_get inputs k).
Proof.
  revert sig inputs. induction a as [b | a IH fb]; intros sig inputs; simpl.
  - auto.
  - destruct (IH (sig_append sig hint_name hint_desc)
                 (dict_set inputs hint_name fb)) as [H1 [H2 H3]].
    split; [exact H1|]. split; [exact H2|].
    intros k Hk. rewrite H3 by exact Hk. apply dict_get_set_other. exact Hk.
Qed.

Lemma adapter_call_preserves_witness :
  "question" <> hint_name /\
  dict_get (req_inputs (adapter_call (RetryAdapter (BaseAdapter "ChatAdapter")
                                        "The answer is too long")
                          QA (question "What land animal has a shell?")))
    "question" = Some "What land animal has a shell?".
Proof.
  split; [discriminate|].
  apply (proj2 (proj2 (adapter_call_preserves
    (RetryAdapter (BaseAdapter "ChatAdapter") "The answer is too long")
    QA (question "What land animal has a shell?")))).
  discriminate.
Defined.

(** When [RetryAdapter]s are nested (a Retrier running inside another's
    scope), each layer writes [hint_] with [inputs | {"hint_": ...}] before
    handing over to the adapter it wraps, so the payload's [hint_] is the
    note of the innermost [RetryAdapter]: the outer layers' notes are
    overwritten. *)
Theorem adapter_call_hint_value a sig inputs :
  dict_get (req_inputs (adapter_call a sig inputs)) hint_name =
  match innermost_note a with
  | Some x => Some x
  | None => dict_get inputs hint_name
  end.
Proof.
  revert sig inputs. induction a as [b | a IH fb]; intros sig inputs; simpl.
  - reflexivity.
  - rewrite IH. destruct (innermost_note a); [reflexivity|].
    apply dict_get_set.
Qed.



(** With a validation, [Predictor.__call__] validates the answer to the
    first engine invocation: if the engine raises, that exception comes out
    after one invocation; if validation rejects the answer, the
    [AssertionError] comes out after one invocation, the rejected answer's
    feedback being the last trace entry; if validation accepts it, the
    result is that of a second invocation on the same request. *)
Theorem predictor_call_validated engine p v input s
  (Hv : validation p = Some v) :
  let rq := adapter_call (default_adapter (st_adapter s)) (p_signature p) input in
  let n := length (st_history s) in
  match engine n rq with
  | Raise e => predictor_call engine p input s = (Raise e, log_request rq s)
  | Ok o1 =>
      let f := v_feedback_module v input o1 in
      if Qle_bool (validation_threshold v) (evaluation f) then
        fst (predictor_call engine p input s) = engine (S n) rq /\
        snd (predictor_call engine p input s) =
          log_request rq (log_trace (input, o1, f) (log_request rq s))
      else
        predictor_call engine p input s =
          (Raise (AssertionError assert_msg),
           log_trace (input, o1, f) (log_request rq s))
  end.
Proof.
  unfold predictor_call, predictor_forward, engine_call, bind, ret, raise. simpl.
  destruct (engine _ _) as [o1|e]; [|reflexivity].
  rewrite Hv. unfold validation_call, bind, feedback_call, ret. simpl.
  destruct (Qle_bool _ _); [|reflexivity].
  simpl. rewrite length_app. simpl.
  replace (length (st_history s) + 1)%nat with (S (length (st_history s))) by lia.
  split; reflexivity.
Qed.

Lemma predictor_call_validated_witness :
  validation p_validated = Some (mkValidation qa_feedback 1) /\
  fst (predictor_call engine_c1 p_validated
         (question "What land animal has a shell?") st0) =
  Ok (answer "Tortoise Tortoise").
Proof.
  split; [reflexivity|].
  exact (proj1 (predictor_call_validated engine_c1 p_validated
    (mkValidation qa_feedback 1) (question "What land animal has a shell?")
    st0 eq_refl)).
Defined.

(** [Retrier.forward] only returns an output its FeedbackModule scored at
    least the threshold, and that scoring is the last trace entry. *)
Theorem retrier_success_sound r input s o s'
  (Hrun : retrier_forward r input s = (Ok o, s')) :
  (threshold r <= evaluation (feedback_module r input o))%Q /\
  exists l, st_trace s' = l ++ [(input, o, feedback_module r input o)].
Proof.
  unfold retrier_forward in Hrun. revert Hrun.
  generalize (Z.to_nat (N r)) as n. generalize (@None Feedback) as fb.
  generalize s. clear s.
  intros s fb n. revert fb s.
  induction n as [|n IH]; intros fb s Hrun; [discriminate|].
  simpl in Hrun. unfold retrier_attempt, bind, feedback_call, ret in Hrun.
  destruct (with_retry_context (prior_note fb) (module r input) s)
    as [[o1|e] s1]; [|discriminate].
  destruct (Qle_bool (threshold r) (evaluation (feedback_module r input o1)))
    eqn:E.
  - inversion Hrun; subst. split; [apply Qle_bool_iff; exact E|].
    eexists. reflexivity.
  - exact (IH _ _ Hrun).
Qed.

Lemma retrier_success_sound_witness :
  retrier_forward r_tortoise (question "What land animal has a shell?") st0 =
    (Ok (answer "Tortoise"),
     snd (retrier_forward r_tortoise (question "What land animal has a shell?") st0)) /\
  (1 <= evaluation (fm_at_threshold (question "What land animal has a shell?")
                      (answer "Tortoise")))%Q.
Proof.
  split; [reflexivity|].
  exact (proj1 (retrier_success_sound r_tortoise
    (question "What land animal has a shell?") st0 (answer "Tortoise") _ eq_refl)).
Defined.



(** However the attempts turn out, [Retrier.forward] calls its module at
    most [N] times (none when [N <= 0]). *)
Theorem retrier_at_most_N_calls r input
  (Hcalls : forall s, st_calls (snd (module r input s)) = st_calls s) :
  forall s,
  (st_calls (snd (retrier_forward (spied r) input s)) <=
   st_calls s + Z.to_nat (N r))%nat.
Proof.
  intro s. unfold retrier_forward. simpl N.
  generalize (Z.to_nat (N r)) as n. generalize (@None Feedback) as fb.
  intros fb n. revert fb s.
  induction n as [|n IH]; intros fb s; [simpl; lia|].
  destruct (with_retry_context_body (prior_note fb) (spy (module r) input) s)
    as [s_in [Hin [_ Hcnt]]].
  cbn [retrier_loop]. unfold retrier_attempt, bind, feedback_call, ret.
  change (module (spied r)) with (spy (module r)).
  change (threshold (spied r)) with (threshold r).
  change (feedback_module (spied r)) with (feedback_module r).
  destruct (with_retry_context (prior_note fb) (spy (module r) input) s)
    as [x s1]; simpl in Hcnt.
  unfold spy in Hcnt. rewrite Hcalls in Hcnt. simpl in Hcnt.
  destruct x as [o|e].
  - destruct (Qle_bool _ _); simpl; [lia|].
    specialize (IH (Some (feedback_module r input o))
                   (log_trace (input, o, feedback_module r input o) s1)).
    simpl in IH. lia.
  - simpl. lia.
Qed.

Lemma retrier_at_most_N_calls_witness :
  (st_calls (snd (retrier_forward (spied r_tortoise)
                    (question "What land animal has a shell?") st0)) <= 3)%nat.
Proof.
  apply (retrier_at_most_N_calls r_tortoise
    (question "What land animal has a shell?")).
  intro s. reflexivity.
Defined.

(** The scope events of [n] augmented attempts around the adapter [base]. *)
Definition retry_scopes (base : Adapter) (notes : list string) : list ScopeEvent :=
  concat (map (fun x => [Enter (RetryAdapter base x); Exit]) notes).

Lemma retry_scopes_app base l1 l2 :
  retry_scopes base (l1 ++ l2) = retry_scopes base l1 ++ retry_scopes base l2.
Proof. unfold retry_scopes. rewrite map_app, concat_app. reflexivity. Qed.

(** The scopes a Retrier opens: with a module that leaves the adapter and
    the scopes alone (such as [Predictor.__call__]), a run only adds closed
    [Enter]/[Exit] pairs, each installing a [RetryAdapter] with a non-empty
    note directly around the caller's ambient adapter: scopes never nest and
    never wrap one another's adapter. *)
Theorem retrier_scopes_wrap_ambient r input
  (Hmod : forall s, st_adapter (snd (module r input s)) = st_adapter s /\
                    st_scopes (snd (module r input s)) = st_scopes s) :
  forall s, exists notes,
    Forall (fun x => x <> "") notes /\
    st_scopes (snd (retrier_forward r input s)) =
      st_scopes s ++ retry_scopes (default_adapter (st_adapter s)) notes.
Proof.
  intro s. unfold retrier_forward.
  pose (P := fun s1 s2 : St =>
    st_adapter s2 = st_adapter s1 /\
    exists notes, Forall (fun x => x <> "") notes /\
      st_scopes s2 = st_scopes s1 ++
                     retry_scopes (default_adapter (st_adapter s1)) notes).
  assert (HP : P s (snd (retrier_loop r input (Z.to_nat (N r)) None s))).
  { apply retrier_loop_preserves.
    - intro s1. split; [reflexivity|]. exists []. split; [constructor|].
      symmetry. apply app_nil_r.
    - intros s1 s2 s3 [A12 [l1 [F1 E1]]] [A23 [l2 [F2 E2]]].
      split; [congruence|]. exists (l1 ++ l2). split; [apply Forall_app; auto|].
      rewrite E2, E1, A12, retry_scopes_app, app_assoc. reflexivity.
    - intros fb s1. destruct (retrier_attempt_frame r input fb s1)
        as [Ha [_ [Hs _]]].
      unfold P. rewrite Ha, Hs. unfold with_retry_context.
      destruct (prior_note fb) as [x|] eqn:Hn.
      + simpl retry_context. destruct (String.eqb x "") eqn:Ex.
        * destruct (Hmod s1) as [H1 H2]. split; [exact H1|].
          exists []. split; [constructor|]. simpl. rewrite H2. symmetry.
          apply app_nil_r.
        * simpl. destruct (Hmod (log_scope (Enter (RetryAdapter
              (default_adapter (st_adapter s1)) x))
              (set_adapter (Some (RetryAdapter
              (default_adapter (st_adapter s1)) x)) s1))) as [_ H2].
          destruct (module r input _) as [y s2]. simpl in *.
          split; [reflexivity|]. exists [x].
          split; [constructor; [apply String.eqb_neq; exact Ex | constructor]|].
          rewrite H2. simpl. rewrite <- app_assoc. reflexivity.
      + destruct (Hmod s1) as [H1 H2]. split; [exact H1|].
        exists []. split; [constructor|]. simpl. rewrite H2. symmetry.
        apply app_nil_r. }
  destruct HP as [_ HP]. exact HP.
Qed.

Lemma retrier_scopes_wrap_ambient_witness :
  exists notes,
    Forall (fun x => x <> "") notes /\
    st_scopes (snd (retrier_forward
      (mkRetrier (predictor_call engine_hint p_plain) qa_feedback 3 1)
      (question "What land animal has a shell?") st0)) =
    st_scopes st0 ++ retry_scopes (BaseAdapter "ChatAdapter") notes.
Proof.
  apply (retrier_scopes_wrap_ambient
    (mkRetrier (predictor_call engine_hint p_plain) qa_feedback 3 1)
    (question "What land animal has a shell?")).
  intro s. destruct (predictor_call_frame engine_hint p_plain
    (question "What land animal has a shell?") s) as [H1 [H2 _]].
  split; assumption.
Defined.

(** A Retrier whose Predictor is validated by the Retrier's own
    FeedbackModule at a threshold at least the Retrier's ([main.py] with
    [--validation --retry]: [QAFeedback] at [1.0] for both), over an engine
    whose answer depends only on the request (a cached LM), never retries:
    its run is the first Predictor call followed by one scoring, and it
    either returns that call's output or raises that call's exception. *)
Theorem retrier_validated_never_retries engine p v fm n thr input
  (Hv : validation p = Some v)
  (Hfm : v_feedback_module v = fm)
  (Hthr : (thr <= validation_threshold v)%Q)
  (Hdet : forall k k' rq, engine k rq = engine k' rq)
  (HN : (1 <= n)%Z) :
  forall s,
  retrier_forward (mkRetrier (predictor_call engine p) fm n thr) input s =
  match predictor_call engine p input s with
  | (Ok o, s1) => (Ok o, log_trace (input, o, fm input o) s1)
  | (Raise e, s1) => (Raise e, s1)
  end.
Proof.
  intro s. unfold retrier_forward. simpl N.
  destruct (Z.to_nat n) as [|k] eqn:En; [lia|].
  cbn [retrier_loop]. unfold retrier_attempt, bind, feedback_call, ret.
  assert (Hw : with_retry_context (prior_note None)
     (module (mkRetrier (predictor_call engine p) fm n thr) input) s =
     predictor_call engine p input s) by reflexivity.
  rewrite Hw. simpl threshold. simpl feedback_module.
  pose proof (predictor_call_validated engine p v input s Hv) as H.
  cbv zeta in H.
  destruct (predictor_call engine p input s) as [[o|e] s1] eqn:Ep;
    [|reflexivity].
  destruct (engine _ _) as [o1|e1] eqn:E1 in H.
  - destruct (Qle_bool (validation_threshold v)
                (evaluation (v_feedback_module v input o1))) eqn:Eq in H.
    + destruct H as [H _]. simpl in H.
      rewrite (Hdet _ (length (st_history s))), E1 in H.
      inversion H; subst o1.
      assert (Hle : Qle_bool thr (evaluation (fm input o)) = true).
      { apply Qle_bool_iff. apply Qle_bool_iff in Eq. rewrite Hfm in Eq.
        exact (Qle_trans _ _ _ Hthr Eq). }
      simpl. rewrite Hle. reflexivity.
    + discriminate H.
  - discriminate H.
Qed.

(** The configuration of [main.py] with [--validation --retry]. *)
Definition main_retrier (engine : Engine) : Retrier :=
  mkRetrier (predictor_call engine p_validated) qa_feedback 3 1.

Lemma retrier_validated_never_retries_witness :
  retrier_forward (main_retrier (engine_const "Tortoise Tortoise"))
    (question "What land animal has a shell?") st0 =
  (Raise (AssertionError assert_msg),
   snd (predictor_call (engine_const "Tortoise Tortoise") p_validated
          (question "What land animal has a shell?") st0)).
Proof.
  exact (retrier_validated_never_retries (engine_const "Tortoise Tortoise")
    p_validated (mkValidation qa_feedback 1) qa_feedback 3 1
    (question "What land animal has a shell?") eq_refl eq_refl
    (Qle_refl 1) (fun _ _ _ => eq_refl) ltac:(lia) st0).
Defined.
